(** * A shallow embedding of [backend/simple_app.py]

    The simplified chat backend: one POST handler ([query_documents]) that
    keeps a module-level dictionary of conversation histories and calls the
    Anthropic client once per request, one GET handler ([get_course_stats])
    that returns a fixed placeholder, and a health probe.

    Python dictionaries keyed by strings are [gmap string _]; dict literals
    with a fixed key set ([{"user": .., "assistant": ..}]) are records; the
    handler body is written in a small state-and-exception monad whose state
    holds the process environment, the [sessions] dictionary and the log of
    calls made to the generation client. *)

From Stdlib Require Import ZArith String List Lia.
From stdpp Require Import base option list gmap strings pretty.

Local Open Scope string_scope.
Local Open Scope list_scope.

(** ** Python primitives used by the handler *)

Module Py.

(** What can travel up to the handler's [except Exception] clause. *)
Inductive Exception : Type :=
| HTTPException (status_code : Z) (detail : string)
| IndexError
| KeyError (key : string)
| ClientError (message : string).

(** Truth value of an [Optional[str]]: [None] and [""] are falsy. *)
Definition truthy (o : option string) : bool :=
  match o with
  | None => false
  | Some "" => false
  | Some _ => true
  end.

(** [o or d] for an [Optional[str]] on the left. *)
Definition or_else (o : option string) (d : string) : string :=
  match o with
  | Some s => if truthy o then s else d
  | None => d
  end.

(** [l[-n:]] for a positive literal [n]: the last [n] items, or all of
    [l] when it is shorter. *)
Definition last_slice {A : Type} (n : nat) (l : list A) : list A :=
  drop (length l - n) l.

(** [l[0]]. *)
Definition item0 {A : Type} (l : list A) : Exception + A :=
  match l with
  | [] => inl IndexError
  | x :: _ => inr x
  end.

Definition newline : string := String (Ascii.ascii_of_nat 10) EmptyString.

End Py.

Import Py.

(** ** Data carried by the application *)

(** [class QueryRequest(BaseModel)]. *)
Module QueryRequest.
Record t : Type := Build { query : string; session_id : option string }.
End QueryRequest.

(** [class QueryResponse(BaseModel)]. *)
Module QueryResponse.
Record t : Type :=
  Build { answer : string; sources : list string; session_id : string }.
End QueryResponse.

(** [class CourseStats(BaseModel)]. *)
Module CourseStats.
Record t : Type := Build { total_courses : Z; course_titles : list string }.
End CourseStats.

(** One stored turn, [{"user": .., "assistant": ..}]. *)
Module Exchange.
Record t : Type := Build { user : string; assistant : string }.
End Exchange.

(** One entry of the [messages] argument, [{"role": .., "content": ..}]. *)
Module Message.
Record t : Type := Build { role : string; content : string }.
End Message.

(** Keyword arguments of [anthropic_client.messages.create]. *)
Module CreateArgs.
Record t : Type :=
  Build { model : string; max_tokens : Z; temperature : Z;
          system : string; messages : list Message.t }.
End CreateArgs.

(** The part of the client's reply that the handler reads:
    [response.content[0].text]. The block is the SDK's text block, whose
    [text] is a [str]; a reply whose first block carries anything else is
    not represented, so building the [QueryResponse] from [answer] always
    passes its validation here. *)
Module ContentBlock.
Record t : Type := Build { text : string }.
End ContentBlock.

Module Response.
Record t : Type := Build { content : list ContentBlock.t }.
End Response.

(** Body of [health_check]'s reply. *)
Module Health.
Record t : Type :=
  Build { status : string; anthropic_api_configured : bool; mode : string }.
End Health.

(** ** The application *)

Module SimpleApp.

(** Process state the handlers can observe or change: [os.environ], the
    module-level [sessions = {}], and the calls issued so far to the
    generation client (oldest first). *)
Record World : Type :=
  MkWorld { environ : gmap string string;
            sessions : gmap string (list Exchange.t);
            calls : list CreateArgs.t }.

(** A handler body: reads and writes the world, returns or raises. *)
Definition Handler (A : Type) : Type := World -> (Exception + A) * World.

Definition ret {A : Type} (a : A) : Handler A := fun w => (inr a, w).

Definition raise {A : Type} (e : Exception) : Handler A := fun w => (inl e, w).

Definition bind {A B : Type} (m : Handler A) (k : A -> Handler B) : Handler B :=
  fun w =>
    match m w with
    | (inr a, w') => k a w'
    | (inl e, w') => (inl e, w')
    end.

(** [try: body  except Exception as e: handler e]. *)
Definition try_except {A : Type} (body : Handler A) (handler : Exception -> Handler A)
  : Handler A :=
  fun w =>
    match body w with
    | (inr a, w') => (inr a, w')
    | (inl e, w') => handler e w'
    end.

Definition lift {A : Type} (r : Exception + A) : Handler A := fun w => (r, w).

Declare Scope handler_scope.
Delimit Scope handler_scope with handler.
Notation "x <- m ;; k" := (bind m (fun x => k))
  (at level 100, m at next level, right associativity) : handler_scope.
Notation "m ;; k" := (bind m (fun _ => k))
  (at level 100, right associativity) : handler_scope.
Local Open Scope handler_scope.

(** [os.getenv(name)]. *)
Definition getenv (name : string) : Handler (option string) :=
  fun w => (inr (environ w !! name), w).

(** [sessions.get(key, [])]. *)
Definition history (key : string) (s : gmap string (list Exchange.t)) : list Exchange.t :=
  default [] (s !! key).

Definition sessions_get (key : string) : Handler (list Exchange.t) :=
  fun w => (inr (history key (sessions w)), w).

(** [key in sessions]. *)
Definition sessions_contains (key : string) : Handler bool :=
  fun w => (inr (bool_decide (is_Some (sessions w !! key))), w).

(** [sessions[key]]. *)
Definition sessions_getitem (key : string) : Handler (list Exchange.t) :=
  fun w =>
    match sessions w !! key with
    | Some l => (inr l, w)
    | None => (inl (KeyError key), w)
    end.

(** [sessions[key] = value]. *)
Definition sessions_setitem (key : string) (value : list Exchange.t) : Handler unit :=
  fun w =>
    (inr tt, {| environ := environ w;
                sessions := <[key := value]> (sessions w);
                calls := calls w |}).

Definition system_prompt : string :=
  "You are a helpful AI assistant. You can answer questions about various topics. "
  +:+ newline +:+
  "        Since the full RAG system is not yet set up, you should use your general knowledge to provide helpful responses."
  +:+ newline +:+
  "        "
  +:+ newline +:+
  "        Note: The vector search functionality is not available yet, so you're responding based on your training data.".

Definition api_key_missing_detail : string :=
  "Anthropic API key not configured. Please add ANTHROPIC_API_KEY to your .env file.".

Definition general_knowledge_source : string :=
  "General AI Knowledge (RAG system not fully initialized)".

Definition courses_placeholder_title : string :=
  "Full RAG system not initialized - install ChromaDB and sentence-transformers to enable course search".

(** The two [messages.append] calls of one loop iteration. *)
Definition turn_pair (exchange : Exchange.t) : list Message.t :=
  [ {| Message.role := "user"; Message.content := Exchange.user exchange |};
    {| Message.role := "assistant"; Message.content := Exchange.assistant exchange |} ].

(** [messages = []], the loop over [history[-3:]], then the append of the
    current query. *)
Definition build_messages (history : list Exchange.t) (query : string) : list Message.t :=
  let messages :=
    fold_left (fun messages exchange => messages ++ turn_pair exchange)
              (last_slice 3 history) [] in
  messages ++ [ {| Message.role := "user"; Message.content := query |} ].

Definition create_args (messages : list Message.t) : CreateArgs.t :=
  {| CreateArgs.model := "claude-3-sonnet-20240229";
     CreateArgs.max_tokens := 800;
     CreateArgs.temperature := 0;
     CreateArgs.system := system_prompt;
     CreateArgs.messages := messages |}.

Section Handlers.

(** The generation capability: what the [n]-th call (counting from 0)
    of [anthropic_client.messages.create] does with given arguments. *)
Variable messages_create : nat -> CreateArgs.t -> Exception + Response.t.

(** Python's [str(e)] on the exceptions above. *)
Variable str : Exception -> string.

(** [anthropic_client.messages.create] applied to its keyword arguments:
    the call is logged, then returns or raises. *)
Definition client_create (args : CreateArgs.t) : Handler Response.t :=
  fun w =>
    (messages_create (length (calls w)) args,
     {| environ := environ w;
        sessions := sessions w;
        calls := calls w ++ [args] |}).

(** [async def query_documents(request: QueryRequest)]. *)
Definition query_documents (request : QueryRequest.t) : Handler QueryResponse.t :=
  try_except
    (key <- getenv "ANTHROPIC_API_KEY" ;;
     (if negb (truthy key)
      then raise (HTTPException 500 api_key_missing_detail)
      else ret tt) ;;
     let session_id := or_else (QueryRequest.session_id request) "default" in
     history <- sessions_get session_id ;;
     let messages := build_messages history (QueryRequest.query request) in
     response <- client_create (create_args messages) ;;
     block <- lift (item0 (Response.content response)) ;;
     let answer := ContentBlock.text block in
     present <- sessions_contains session_id ;;
     (if negb present then sessions_setitem session_id [] else ret tt) ;;
     stored <- sessions_getitem session_id ;;
     sessions_setitem session_id
       (stored ++ [ {| Exchange.user := QueryRequest.query request;
                       Exchange.assistant := answer |} ]) ;;
     ret {| QueryResponse.answer := answer;
            QueryResponse.sources := [ general_knowledge_source ];
            QueryResponse.session_id := session_id |})
    (fun e => raise (HTTPException 500 (str e))).

(** Requests served one after the other by the same process. *)
Fixpoint serve (requests : list QueryRequest.t) (w : World)
  : list (Exception + QueryResponse.t) * World :=
  match requests with
  | [] => ([], w)
  | request :: rest =>
      let '(r, w1) := query_documents request w in
      let '(rs, w2) := serve rest w1 in
      (r :: rs, w2)
  end.

End Handlers.

(** [async def get_course_stats()]. *)
Definition get_course_stats : Handler CourseStats.t :=
  ret {| CourseStats.total_courses := 0;
         CourseStats.course_titles := [ courses_placeholder_title ] |}.

(** [async def health_check()]. *)
Definition health_check : Handler Health.t :=
  key <- getenv "ANTHROPIC_API_KEY" ;;
  ret {| Health.status := "healthy";
         Health.anthropic_api_configured := truthy key;
         Health.mode := "simplified" |}.

End SimpleApp.

Import SimpleApp.
Local Open Scope handler_scope.

(** ** Vocabulary for the statements *)

(** The session a request is served under (the handler's local
    [session_id]). *)
Definition resolved (request : QueryRequest.t) : string :=
  or_else (QueryRequest.session_id request) "default".

(** The keyword arguments the handler passes to the client for [request]
    when the process is in state [w]. *)
Definition request_args (request : QueryRequest.t) (w : World) : CreateArgs.t :=
  create_args (build_messages (history (resolved request) (sessions w))
                              (QueryRequest.query request)).

(** [w] after one more logged client call, otherwise untouched. *)
Definition logged (w : World) (args : CreateArgs.t) : World :=
  {| environ := environ w; sessions := sessions w; calls := calls w ++ [args] |}.

(** The exchanges that a run of [serve] wrote under [sid]: one per request
    that was served under [sid] and answered, in request order. *)
Fixpoint recorded (sid : string) (requests : list QueryRequest.t)
    (results : list (Exception + QueryResponse.t)) : list Exchange.t :=
  match requests, results with
  | request :: requests', inr response :: results' =>
      (if decide (resolved request = sid)
       then [ {| Exchange.user := QueryRequest.query request;
                 Exchange.assistant := QueryResponse.answer response |} ]
       else [])
      ++ recorded sid requests' results'
  | _ :: requests', inl _ :: results' => recorded sid requests' results'
  | _, _ => []
  end.

(** The cap the test configuration asks for
    ([config.max_conversation_history = 5] in [tests/conftest.py]); the
    application itself never reads it. *)
Definition max_conversation_history : nat := 5.

(** A display string "course_title - lesson_title". *)
Definition label_form (s : string) : Prop :=
  exists course_title lesson_title : string,
    s = course_title +:+ " - " +:+ lesson_title.

(** Does [sep] occur somewhere in [s]? *)
Fixpoint occurs (sep s : string) : bool :=
  String.prefix sep s
  || match s with
     | EmptyString => false
     | String _ s' => occurs sep s'
     end.

(** The four ways a request can end: rejected for want of a key, client
    call raised, reply without a content block, answered. *)
Section OutcomeCases.

Variable messages_create : nat -> CreateArgs.t -> Exception + Response.t.
Variable str : Exception -> string.

Inductive outcome (request : QueryRequest.t) (w : World)
  : (Exception + QueryResponse.t) * World -> Prop :=
| NoKey :
    truthy (environ w !! "ANTHROPIC_API_KEY") = false ->
    outcome request w
      (inl (HTTPException 500 (str (HTTPException 500 api_key_missing_detail))), w)
| Raised e :
    truthy (environ w !! "ANTHROPIC_API_KEY") = true ->
    messages_create (length (calls w)) (request_args request w) = inl e ->
    outcome request w
      (inl (HTTPException 500 (str e)), logged w (request_args request w))
| NoContent response :
    truthy (environ w !! "ANTHROPIC_API_KEY") = true ->
    messages_create (length (calls w)) (request_args request w) = inr response ->
    Response.content response = [] ->
    outcome request w
      (inl (HTTPException 500 (str IndexError)), logged w (request_args request w))
| Answered response block blocks :
    truthy (environ w !! "ANTHROPIC_API_KEY") = true ->
    messages_create (length (calls w)) (request_args request w) = inr response ->
    Response.content response = block :: blocks ->
    outcome request w
      (inr {| QueryResponse.answer := ContentBlock.text block;
              QueryResponse.sources := [ general_knowledge_source ];
              QueryResponse.session_id := resolved request |},
       {| environ := environ w;
          sessions :=
            <[ resolved request :=
                 history (resolved request) (sessions w)
                 ++ [ {| Exchange.user := QueryRequest.query request;
                         Exchange.assistant := ContentBlock.text block |} ] ]>
              (sessions w);
          calls := calls w ++ [ request_args request w ] |}).

End OutcomeCases.

(** ** Concrete processes used to exercise the model *)

Module Demo.

(** A client that always answers with one text block echoing the last
    message it was sent. *)
Definition echo (n : nat) (args : CreateArgs.t) : Exception + Response.t :=
  inr {| Response.content :=
           [ {| ContentBlock.text :=
                  "re: " +:+ default "" (Message.content <$> last (CreateArgs.messages args)) |} ] |}.

(** A client whose every call raises. *)
Definition overloaded (n : nat) (args : CreateArgs.t) : Exception + Response.t :=
  inl (ClientError "overloaded").

(** Python's [str] on these exceptions: Starlette's [HTTPException] prints
    as its status code, a colon and its detail; an [IndexError] raised by
    list indexing and a client error print their message; a [KeyError]
    prints the quoted key (keys here hold no quote or escape). *)
Definition str (e : Exception) : string :=
  match e with
  | HTTPException status_code detail => pretty status_code +:+ ": " +:+ detail
  | IndexError => "list index out of range"
  | KeyError key => "'" +:+ key +:+ "'"
  | ClientError message => message
  end.

(** A freshly started process with the key configured. *)
Definition configured : World :=
  {| environ := {[ "ANTHROPIC_API_KEY" := "sk-test" ]}; sessions := ∅; calls := [] |}.

(** A process without the key, holding one earlier conversation. *)
Definition unconfigured : World :=
  {| environ := ∅;
     sessions := {[ "s1" := [ {| Exchange.user := "hi"; Exchange.assistant := "hello" |} ] ]};
     calls := [] |}.

Definition ask (query : string) (session_id : option string) : QueryRequest.t :=
  {| QueryRequest.query := query; QueryRequest.session_id := session_id |}.

(** Seven questions in one named session. *)
Definition seven : list QueryRequest.t :=
  map (fun q => ask q (Some "s1")) ["q1"; "q2"; "q3"; "q4"; "q5"; "q6"; "q7"].

Definition after_seven : World := snd (serve echo str seven configured).

(** Four questions in one named session. *)
Definition four : list QueryRequest.t :=
  map (fun q => ask q (Some "s1")) ["q1"; "q2"; "q3"; "q4"].

Definition after_four : World := snd (serve echo str four configured).

(** One anonymous question. *)
Definition after_anonymous : World :=
  snd (query_documents echo str (ask "q1" None) configured).

End Demo.

(** ** The application assembled by the test fixtures

    [tests/conftest.py] builds a second FastAPI application
    ([test_app_without_static]) whose handler delegates to a [Mock] standing
    for the RAG system; the endpoint tests run against it. *)

Module TestApp.

(** A call recorded by the mock, in the order made. *)
Inductive MockCall : Type :=
| CreateSession
| Query (query session_id : string).

(** How the mock is configured: what
    [mock_rag.session_manager.create_session()] and
    [mock_rag.query(query, session_id)] return ([return_value]) or raise
    ([side_effect]). Return values are taken well-shaped, a [str] and a
    pair of a [str] and a list of [str], as the fixture sets them; a mock
    returning anything else (on which the unpacking or the response model
    would fail) is not represented. *)
Record MockRag : Type :=
  MkMockRag { create_session : Exception + string;
              query : string -> string -> Exception + (string * list string) }.

(** The configuration the fixture gives it. *)
Definition mock_rag : MockRag :=
  {| create_session := inr "test-session-123";
     query := fun _ _ =>
       inr ("This is a test response about Python programming.",
            [ "Python Basics - Introduction to Python" ]) |}.

Section Handler.

Variable rag : MockRag.
Variable str : Exception -> string.

(** [session_id = request.session_id], then
    [if not session_id: session_id = ...create_session()]. *)
Definition session_for (request : QueryRequest.t) (log : list MockCall)
  : (Exception + string) * list MockCall :=
  match QueryRequest.session_id request with
  | Some s =>
      if negb (truthy (Some s))
      then (create_session rag, log ++ [ CreateSession ])
      else (inr s, log)
  | None => (create_session rag, log ++ [ CreateSession ])
  end.

(** The fixture's [query_documents]: the whole body sits in
    [try ... except Exception as e: raise HTTPException(500, str(e))]. *)
Definition query_documents (request : QueryRequest.t) (log : list MockCall)
  : (Exception + QueryResponse.t) * list MockCall :=
  match session_for request log with
  | (inl e, log1) => (inl (HTTPException 500 (str e)), log1)
  | (inr session_id, log1) =>
      let log2 := log1 ++ [ Query (QueryRequest.query request) session_id ] in
      match query rag (QueryRequest.query request) session_id with
      | inl e => (inl (HTTPException 500 (str e)), log2)
      | inr (answer, sources) =>
          (inr {| QueryResponse.answer := answer;
                  QueryResponse.sources := sources;
                  QueryResponse.session_id := session_id |}, log2)
      end
  end.

End Handler.

End TestApp.

(** ** Further vocabulary and test doubles *)

(** A store in which every session has a non-empty id and at least one
    exchange. *)
Definition tidy (s : gmap string (list Exchange.t)) : Prop :=
  forall sid l, s !! sid = Some l -> sid <> "" /\ l <> [].

(** The role the [i]-th message of a prompt is expected to carry. *)
Definition role_at (i : nat) : string :=
  if Nat.even i then "user" else "assistant".

Module Probe.

(** A client that answers with no content block at all. *)
Definition silent (n : nat) (args : CreateArgs.t) : Exception + Response.t :=
  inr {| Response.content := [] |}.

(** A client that answers the first call and raises on every later one. *)
Definition flaky (n : nat) (args : CreateArgs.t) : Exception + Response.t :=
  match n with
  | 0 => Demo.echo n args
  | S _ => inl (ClientError "rate limited")
  end.

(** A client that refuses a prompt whose final message is empty, and
    echoes otherwise. *)
Definition strict (n : nat) (args : CreateArgs.t) : Exception + Response.t :=
  match Message.content <$> last (CreateArgs.messages args) with
  | Some "" => inl (ClientError "text content blocks must be non-empty")
  | _ => Demo.echo n args
  end.

(** A process whose key is set to the empty string. *)
Definition blank_key : World :=
  {| environ := {[ "ANTHROPIC_API_KEY" := "" ]}; sessions := ∅; calls := [] |}.

(** Three questions: one anonymous, two in named sessions. *)
Definition mixed : list QueryRequest.t :=
  [ Demo.ask "a" None; Demo.ask "b" (Some "s1"); Demo.ask "c" (Some "s2") ].

(** A mock whose [query] raises, as the exception-handling test patches it. *)
Definition failing_rag : TestApp.MockRag :=
  {| TestApp.create_session := inr "test-session-123";
     TestApp.query := fun _ _ => inl (ClientError "Test error") |}.

End Probe.

(** ** Outcomes of one request *)

Ltac run_handler :=
  cbv beta iota delta [query_documents try_except bind getenv sessions_get
                       client_create lift ret raise sessions_contains
                       sessions_getitem sessions_setitem].

Section Outcomes.

Variable messages_create : nat -> CreateArgs.t -> Exception + Response.t.
Variable str : Exception -> string.

Lemma query_documents_no_key request w :
  truthy (environ w !! "ANTHROPIC_API_KEY") = false ->
  query_documents messages_create str request w
  = (inl (HTTPException 500 (str (HTTPException 500 api_key_missing_detail))), w).
Proof.
  intros Hkey. run_handler. rewrite Hkey. reflexivity.
Qed.

Lemma query_documents_raises request w e :
  truthy (environ w !! "ANTHROPIC_API_KEY") = true ->
  messages_create (length (calls w)) (request_args request w) = inl e ->
  query_documents messages_create str request w
  = (inl (HTTPException 500 (str e)), logged w (request_args request w)).
Proof.
  intros Hkey Hcall. run_handler. rewrite Hkey. cbn [negb].
  unfold request_args, resolved in Hcall. rewrite Hcall. reflexivity.
Qed.

Lemma query_documents_no_content request w response :
  truthy (environ w !! "ANTHROPIC_API_KEY") = true ->
  messages_create (length (calls w)) (request_args request w) = inr response ->
  Response.content response = [] ->
  query_documents messages_create str request w
  = (inl (HTTPException 500 (str IndexError)), logged w (request_args request w)).
Proof.
  intros Hkey Hcall Hnil. run_handler. rewrite Hkey. cbn [negb].
  unfold request_args, resolved in Hcall. rewrite Hcall, Hnil. reflexivity.
Qed.

Lemma query_documents_ok request w response block blocks :
  truthy (environ w !! "ANTHROPIC_API_KEY") = true ->
  messages_create (length (calls w)) (request_args request w) = inr response ->
  Response.content response = block :: blocks ->
  query_documents messages_create str request w
  = (inr {| QueryResponse.answer := ContentBlock.text block;
            QueryResponse.sources := [ general_knowledge_source ];
            QueryResponse.session_id := resolved request |},
     {| environ := environ w;
        sessions :=
          <[ resolved request :=
               history (resolved request) (sessions w)
               ++ [ {| Exchange.user := QueryRequest.query request;
                       Exchange.assistant := ContentBlock.text block |} ] ]>
            (sessions w);
        calls := calls w ++ [ request_args request w ] |}).
Proof.
  intros Hkey Hcall Hcons. run_handler. rewrite Hkey. cbn [negb].
  unfold request_args, resolved in Hcall. rewrite Hcall, Hcons.
  cbn [item0 sessions environ calls].
  unfold request_args. fold (resolved request).
  destruct (sessions w !! resolved request) as [stored|] eqn:Hs.
  - rewrite bool_decide_eq_true_2 by eauto.
    cbn [negb sessions environ calls]. rewrite Hs.
    replace stored with (history (resolved request) (sessions w))
      by (unfold history; rewrite Hs; reflexivity).
    reflexivity.
  - rewrite bool_decide_eq_false_2 by (intros [? ?]; discriminate).
    cbn [negb sessions environ calls].
    rewrite lookup_insert_eq. cbn [sessions environ calls].
    rewrite insert_insert_eq.
    replace (history (resolved request) (sessions w)) with (@nil Exchange.t)
      by (unfold history; rewrite Hs; reflexivity).
    reflexivity.
Qed.

Lemma query_documents_outcome request w :
  outcome messages_create str request w
          (query_documents messages_create str request w).
Proof.
  destruct (truthy (environ w !! "ANTHROPIC_API_KEY")) eqn:Hkey.
  - destruct (messages_create (length (calls w)) (request_args request w))
      as [e|response] eqn:Hcall.
    + rewrite (query_documents_raises _ _ _ Hkey Hcall). by apply Raised.
    + destruct (Response.content response) as [|block blocks] eqn:Hc.
      * rewrite (query_documents_no_content _ _ _ Hkey Hcall Hc).
        by eapply NoContent.
      * rewrite (query_documents_ok _ _ _ _ _ Hkey Hcall Hc).
        by eapply Answered.
  - rewrite (query_documents_no_key _ _ Hkey). by apply NoKey.
Qed.

End Outcomes.

(** ** Small facts about the Python primitives *)

Lemma last_slice_short {A : Type} (n : nat) (l : list A) :
  length l <= n -> last_slice n l = l.
Proof.
  intros Hle. unfold last_slice.
  replace (length l - n) with 0 by lia. reflexivity.
Qed.

Lemma last_slice_length {A : Type} (n : nat) (l : list A) :
  length (last_slice n l) = Nat.min n (length l).
Proof. unfold last_slice. rewrite length_drop. lia. Qed.

Lemma last_slice_suffix {A : Type} (n : nat) (l : list A) :
  take (length l - n) l ++ last_slice n l = l.
Proof. unfold last_slice. apply take_drop. Qed.

Lemma or_else_cases (o : option string) (d : string) :
  or_else o d = match o with
                | Some s => if decide (s = "") then d else s
                | None => d
                end.
Proof.
  destruct o as [s|]; [|reflexivity].
  destruct s as [|a s]; cbn; [reflexivity|].
  destruct (decide (String a s = "")) as [Heq|_]; [discriminate Heq | reflexivity].
Qed.

(** The message loop, as one expression. *)
Lemma fold_turn_pairs (l : list Exchange.t) (acc : list Message.t) :
  fold_left (fun messages exchange => messages ++ turn_pair exchange) l acc
  = acc ++ flat_map turn_pair l.
Proof.
  revert acc. induction l as [|exchange l IH]; intros acc; cbn [fold_left flat_map].
  - by rewrite app_nil_r.
  - rewrite IH. by rewrite <- app_assoc.
Qed.

Lemma build_messages_flat (h : list Exchange.t) (query : string) :
  build_messages h query
  = flat_map turn_pair (last_slice 3 h)
    ++ [ {| Message.role := "user"; Message.content := query |} ].
Proof. unfold build_messages. by rewrite fold_turn_pairs. Qed.

Lemma prefix_app (sep rest : string) : String.prefix sep (sep +:+ rest) = true.
Proof.
  induction sep as [|a sep IH]; simpl.
  - by destruct rest.
  - destruct (Ascii.ascii_dec a a) as [_|Hne]; [exact IH | by destruct Hne].
Qed.

Lemma occurs_unfold (sep s : string) :
  occurs sep s
  = String.prefix sep s
    || match s with
       | EmptyString => false
       | String _ s' => occurs sep s'
       end.
Proof. by destruct s. Qed.

Lemma occurs_app (sep before rest : string) :
  occurs sep (before +:+ sep +:+ rest) = true.
Proof.
  induction before as [|a before IH].
  - change (occurs sep (sep +:+ rest) = true).
    rewrite occurs_unfold, prefix_app. reflexivity.
  - change (occurs sep (String a (before +:+ sep +:+ rest)) = true).
    rewrite occurs_unfold, IH. apply orb_true_r.
Qed.

Lemma label_form_occurs (s : string) : label_form s -> occurs " - " s = true.
Proof. intros (course_title & lesson_title & ->). apply occurs_app. Qed.

Lemma general_knowledge_source_not_label : ~ label_form general_knowledge_source.
Proof.
  intros Hform. apply label_form_occurs in Hform.
  vm_compute in Hform. discriminate Hform.
Qed.

(** ** What one request does to the process *)

Section Requests.

Variable messages_create : nat -> CreateArgs.t -> Exception + Response.t.
Variable str : Exception -> string.

(** With the key configured the client is called exactly once, whatever
    happens afterwards. *)
Lemma calls_after_request request w :
  truthy (environ w !! "ANTHROPIC_API_KEY") = true ->
  calls (snd (query_documents messages_create str request w))
  = calls w ++ [ request_args request w ].
Proof.
  intros Hkey.
  destruct (query_documents_outcome messages_create str request w)
    as [Hno | e _ _ | response _ _ _ | response block blocks _ _ _];
    [congruence | reflexivity ..].
Qed.

(** The failures represented here (key check, client call, read of the
    first content block) all precede the only write to [sessions], so a
    request that ends in one of them leaves every conversation as it was. *)
Lemma failed_request_keeps_sessions request w e :
  fst (query_documents messages_create str request w) = inl e ->
  sessions (snd (query_documents messages_create str request w)) = sessions w.
Proof.
  destruct (query_documents_outcome messages_create str request w);
    cbn [fst snd logged sessions]; [reflexivity .. | discriminate].
Qed.

(** C4: when the generation call raises, the request ends in a single
    HTTP 500 error carrying the text of that exception, the client has
    been called exactly once for it (no second attempt), and the
    [sessions] dictionary is what it was before the request. *)
Theorem generation_failure_is_terminal request w e :
  truthy (environ w !! "ANTHROPIC_API_KEY") = true ->
  messages_create (length (calls w)) (request_args request w) = inl e ->
  fst (query_documents messages_create str request w)
  = inl (HTTPException 500 (str e))
  /\ calls (snd (query_documents messages_create str request w))
     = calls w ++ [ request_args request w ]
  /\ sessions (snd (query_documents messages_create str request w))
     = sessions w.
Proof.
  intros Hkey Hcall.
  rewrite (query_documents_raises _ _ _ _ _ Hkey Hcall).
  repeat split.
Qed.

(** C10: with ANTHROPIC_API_KEY unset the request ends in an HTTP 500
    error, the generation client has not been called, and no session has
    been created or changed. *)
Theorem missing_api_key_is_rejected request w :
  environ w !! "ANTHROPIC_API_KEY" = None ->
  fst (query_documents messages_create str request w)
  = inl (HTTPException 500 (str (HTTPException 500 api_key_missing_detail)))
  /\ calls (snd (query_documents messages_create str request w)) = calls w
  /\ sessions (snd (query_documents messages_create str request w)) = sessions w.
Proof.
  intros Hunset.
  assert (Hkey : truthy (environ w !! "ANTHROPIC_API_KEY") = false)
    by (rewrite Hunset; reflexivity).
  rewrite (query_documents_no_key _ _ _ _ Hkey).
  repeat split.
Qed.

(** C8: a request whose query is the empty string is handled exactly as
    any other. The handler has no check on the query: the prompt is the
    pairs of the last three stored exchanges followed by the empty text as
    the final user message; with the key configured that prompt always
    reaches the client, and the request then fails only if the client
    raises or replies without a content block; when the client answers,
    its reply is returned and the exchange, with the empty query, is
    stored. The only rejection by the handler itself is the key check,
    which does not look at the query. *)
Theorem empty_query_is_served session_id w :
  let request := {| QueryRequest.query := ""; QueryRequest.session_id := session_id |} in
  CreateArgs.messages (request_args request w)
  = flat_map turn_pair (last_slice 3 (history (resolved request) (sessions w)))
    ++ [ {| Message.role := "user"; Message.content := "" |} ]
  /\ (truthy (environ w !! "ANTHROPIC_API_KEY") = true ->
      calls (snd (query_documents messages_create str request w))
      = calls w ++ [ request_args request w ])
  /\ query_documents messages_create str request w
     = if truthy (environ w !! "ANTHROPIC_API_KEY")
       then
         match messages_create (length (calls w)) (request_args request w) with
         | inl e =>
             (inl (HTTPException 500 (str e)), logged w (request_args request w))
         | inr response =>
             match Response.content response with
             | [] =>
                 (inl (HTTPException 500 (str IndexError)),
                  logged w (request_args request w))
             | block :: _ =>
                 (inr {| QueryResponse.answer := ContentBlock.text block;
                         QueryResponse.sources := [ general_knowledge_source ];
                         QueryResponse.session_id := resolved request |},
                  {| environ := environ w;
                     sessions :=
                       <[ resolved request :=
                            history (resolved request) (sessions w)
                            ++ [ {| Exchange.user := "";
                                    Exchange.assistant := ContentBlock.text block |} ] ]>
                         (sessions w);
                     calls := calls w ++ [ request_args request w ] |})
             end
         end
       else
         (inl (HTTPException 500
                 (str (HTTPException 500 api_key_missing_detail))), w).
Proof.
  intros request. split; [|split].
  - unfold request_args, create_args. cbn [CreateArgs.messages].
    apply build_messages_flat.
  - apply calls_after_request.
  - destruct (truthy (environ w !! "ANTHROPIC_API_KEY")) eqn:Hkey.
    + destruct (messages_create (length (calls w)) (request_args request w))
        as [e|response] eqn:Hcall.
      * exact (query_documents_raises _ _ _ _ _ Hkey Hcall).
      * destruct (Response.content response) as [|block blocks] eqn:Hcontent.
        -- exact (query_documents_no_content _ _ _ _ _ Hkey Hcall Hcontent).
        -- exact (query_documents_ok _ _ _ _ _ _ _ Hkey Hcall Hcontent).
    + exact (query_documents_no_key _ _ _ _ Hkey).
Qed.

(** C9: for a session id under which nothing is stored, the history read
    returns the empty list without raising; the client is then sent the
    current query alone, and when it answers the session is created
    holding just this exchange. *)
Theorem unknown_session_has_empty_history request w :
  sessions w !! resolved request = None ->
  sessions_get (resolved request) w = (inr [], w)
  /\ request_args request w
     = create_args [ {| Message.role := "user";
                        Message.content := QueryRequest.query request |} ]
  /\ forall response block blocks,
       truthy (environ w !! "ANTHROPIC_API_KEY") = true ->
       messages_create (length (calls w)) (request_args request w) = inr response ->
       Response.content response = block :: blocks ->
       query_documents messages_create str request w
       = (inr {| QueryResponse.answer := ContentBlock.text block;
                 QueryResponse.sources := [ general_knowledge_source ];
                 QueryResponse.session_id := resolved request |},
          {| environ := environ w;
             sessions :=
               <[ resolved request :=
                    [ {| Exchange.user := QueryRequest.query request;
                         Exchange.assistant := ContentBlock.text block |} ] ]>
                 (sessions w);
             calls := calls w ++ [ request_args request w ] |}).
Proof.
  intros Hunknown.
  assert (Hh : history (resolved request) (sessions w) = [])
    by (unfold history; rewrite Hunknown; reflexivity).
  split; [|split].
  - unfold sessions_get. by rewrite Hh.
  - unfold request_args. by rewrite Hh.
  - intros response block blocks Hkey Hcall Hcons.
    rewrite (query_documents_ok _ _ _ _ _ _ _ Hkey Hcall Hcons).
    by rewrite Hh.
Qed.

End Requests.

(** ** Conversations: several requests against one process *)

Section Conversations.

Variable messages_create : nat -> CreateArgs.t -> Exception + Response.t.
Variable str : Exception -> string.

Lemma serve_cons request rest w :
  serve messages_create str (request :: rest) w
  = (fst (query_documents messages_create str request w)
       :: fst (serve messages_create str rest
                 (snd (query_documents messages_create str request w))),
     snd (serve messages_create str rest
            (snd (query_documents messages_create str request w)))).
Proof.
  cbn [serve].
  destruct (query_documents messages_create str request w) as [r w1].
  cbn [fst snd].
  destruct (serve messages_create str rest w1) as [rs w2].
  reflexivity.
Qed.

(** One request extends the history of the session it is served under by
    its own exchange when it is answered, and touches nothing else. *)
Lemma history_after_request request w sid :
  history sid (sessions (snd (query_documents messages_create str request w)))
  = history sid (sessions w)
    ++ recorded sid [request] [fst (query_documents messages_create str request w)].
Proof.
  destruct (query_documents_outcome messages_create str request w);
    cbn [fst snd logged sessions recorded];
    try (by rewrite app_nil_r).
  rewrite app_nil_r. cbn [QueryResponse.answer]. unfold history.
  destruct (decide (resolved request = sid)) as [<-|Hne].
  - by rewrite lookup_insert_eq.
  - rewrite lookup_insert_ne by exact Hne. by rewrite app_nil_r.
Qed.

Lemma recorded_cons sid request requests r results :
  recorded sid (request :: requests) (r :: results)
  = recorded sid [request] [r] ++ recorded sid requests results.
Proof.
  destruct r as [e|response]; cbn [recorded]; [reflexivity|].
  by rewrite app_nil_r.
Qed.

(** C1: the stored history is never cut. Serving any sequence of requests
    leaves, under every session id, the history that was there before
    followed by every exchange recorded under that id during the run, in
    request order; nothing is evicted, so its length grows by one with
    every answered request of that session. *)
Theorem stored_history_keeps_every_exchange requests w sid :
  history sid (sessions (snd (serve messages_create str requests w)))
  = history sid (sessions w)
    ++ recorded sid requests (fst (serve messages_create str requests w))
  /\ length (history sid (sessions (snd (serve messages_create str requests w))))
     = length (history sid (sessions w))
       + length (recorded sid requests (fst (serve messages_create str requests w))).
Proof.
  assert (Hkeep : forall w',
    history sid (sessions (snd (serve messages_create str requests w')))
    = history sid (sessions w')
      ++ recorded sid requests (fst (serve messages_create str requests w'))).
  { induction requests as [|request rest IH]; intros w'.
    - cbn. by rewrite app_nil_r.
    - rewrite serve_cons. cbn [fst snd].
      rewrite recorded_cons, IH, history_after_request.
      by rewrite app_assoc. }
  split; [apply Hkeep|]. rewrite Hkeep. apply length_app.
Qed.

(** C3: the message list sent to the client is built from the last three
    stored exchanges only (from all of them when at most three are
    stored), one user/assistant pair per exchange in stored order,
    followed by the current query as the final user message. *)
Theorem prompt_is_built_from_last_three request w :
  truthy (environ w !! "ANTHROPIC_API_KEY") = true ->
  let stored := history (resolved request) (sessions w) in
  calls (snd (query_documents messages_create str request w))
  = calls w
    ++ [ create_args
           (flat_map turn_pair (last_slice 3 stored)
            ++ [ {| Message.role := "user";
                    Message.content := QueryRequest.query request |} ]) ]
  /\ length (last_slice 3 stored) = Nat.min 3 (length stored)
  /\ take (length stored - 3) stored ++ last_slice 3 stored = stored.
Proof.
  intros Hkey stored. split; [|split].
  - rewrite (calls_after_request _ _ _ _ Hkey).
    unfold request_args. by rewrite build_messages_flat.
  - apply last_slice_length.
  - apply last_slice_suffix.
Qed.

(** C2: with the key configured and a client that answers, the request
    succeeds with the client's text as the answer and exactly one source
    label, the fixed "General AI Knowledge" notice; the client has been
    called once, with the fixed system prompt and no retrieved context. *)
Theorem answer_carries_fixed_source request w response block blocks :
  truthy (environ w !! "ANTHROPIC_API_KEY") = true ->
  messages_create (length (calls w)) (request_args request w) = inr response ->
  Response.content response = block :: blocks ->
  fst (query_documents messages_create str request w)
  = inr {| QueryResponse.answer := ContentBlock.text block;
           QueryResponse.sources := [ general_knowledge_source ];
           QueryResponse.session_id := resolved request |}
  /\ calls (snd (query_documents messages_create str request w))
     = calls w ++ [ request_args request w ]
  /\ CreateArgs.system (request_args request w) = system_prompt.
Proof.
  intros Hkey Hcall Hcons.
  rewrite (query_documents_ok _ _ _ _ _ _ _ Hkey Hcall Hcons).
  repeat split.
Qed.

(** C5: an answered request is served under the session id it supplies
    when that id is a non-empty string, and under the fixed id "default"
    when it supplies none or the empty string; the response carries that
    id. *)
Theorem response_session_id_is_given_or_default request w response w' :
  query_documents messages_create str request w = (inr response, w') ->
  QueryResponse.session_id response
  = match QueryRequest.session_id request with
    | Some s => if decide (s = "") then "default" else s
    | None => "default"
    end.
Proof.
  rewrite <- or_else_cases. fold (resolved request).
  destruct (query_documents_outcome messages_create str request w);
    intros Hrun; inversion Hrun; reflexivity.
Qed.

(** C6: every answered request returns the same one-element source list,
    the fixed "General AI Knowledge" notice, whatever the request and the
    stored state; the list has no duplicates, and its label is not of the
    form "course_title - lesson_title". *)
Theorem sources_are_the_fixed_notice request w response w' :
  query_documents messages_create str request w = (inr response, w') ->
  QueryResponse.sources response = [ general_knowledge_source ]
  /\ NoDup (QueryResponse.sources response)
  /\ Forall (fun label => ~ label_form label) (QueryResponse.sources response).
Proof.
  intros Hrun.
  assert (Hsrc : QueryResponse.sources response = [ general_knowledge_source ]).
  { revert Hrun.
    destruct (query_documents_outcome messages_create str request w);
      intros Hrun; inversion Hrun; reflexivity. }
  split; [exact Hsrc|]. rewrite Hsrc. split.
  - apply NoDup_singleton.
  - apply Forall_singleton, general_knowledge_source_not_label.
Qed.

End Conversations.

(** C7: the course statistics are a constant, whatever the state, which is
    left unchanged: the count is 0 and the title list has one entry, a fixed
    notice; so the count is not the number of listed titles. *)
Theorem course_stats_are_a_placeholder (w : World) :
  exists stats,
    get_course_stats w = (inr stats, w)
    /\ CourseStats.total_courses stats = 0%Z
    /\ CourseStats.course_titles stats = [ courses_placeholder_title ]
    /\ CourseStats.total_courses stats
       <> Z.of_nat (length (CourseStats.course_titles stats)).
Proof.
  eexists. split; [reflexivity|].
  cbn [CourseStats.total_courses CourseStats.course_titles length].
  repeat split. lia.
Qed.

(** ** The handlers run on concrete processes *)

(** C1, as worded, fails: seven answered questions in session "s1" leave
    seven stored exchanges, beginning with the very first one; that is more
    than the cap of five, and it is not the list of the five most recent. *)
Lemma stored_history_exceeds_cap :
  let stored := history "s1" (sessions Demo.after_seven) in
  length stored = 7
  /\ head stored = Some {| Exchange.user := "q1"; Exchange.assistant := "re: q1" |}
  /\ ~ length stored <= max_conversation_history
  /\ stored <> last_slice max_conversation_history stored.
Proof.
  cbv zeta. split; [vm_compute; reflexivity|].
  split; [vm_compute; reflexivity|]. split.
  - vm_compute. lia.
  - intros Heq. apply (f_equal length) in Heq. vm_compute in Heq. discriminate Heq.
Qed.

(** C2, as worded, fails: a question put to a freshly started process,
    where nothing has been retrieved, is answered with a source list that
    is not empty. *)
Lemma sources_not_empty_without_corpus :
  exists response,
    fst (query_documents Demo.echo Demo.str (Demo.ask "What is Python?" None)
           Demo.configured) = inr response
    /\ QueryResponse.sources response <> [].
Proof.
  eexists. split; [vm_compute; reflexivity|]. discriminate.
Qed.

(** C3, as worded, fails: with four exchanges stored under "s1", the fifth
    question is not sent together with all four of them. *)
Lemma prompt_drops_older_exchanges :
  let request := Demo.ask "q5" (Some "s1") in
  let stored := history "s1" (sessions Demo.after_four) in
  length stored = 4
  /\ last (calls (snd (query_documents Demo.echo Demo.str request Demo.after_four)))
     <> Some (create_args
                (flat_map turn_pair stored
                 ++ [ {| Message.role := "user"; Message.content := "q5" |} ])).
Proof.
  cbv zeta. split; [vm_compute; reflexivity|].
  intros Heq.
  apply (f_equal (fun o => length (default [] (CreateArgs.messages <$> o)))) in Heq.
  vm_compute in Heq. discriminate Heq.
Qed.

(** C5, as worded, fails on both counts: a request without a session id is
    answered under "default" although a session of that name is already
    live, and a request that supplies the empty string as its id does not
    get that id back. *)
Lemma default_session_id_is_not_fresh :
  (is_Some (sessions Demo.after_anonymous !! "default")
   /\ exists response,
        fst (query_documents Demo.echo Demo.str (Demo.ask "q2" None)
               Demo.after_anonymous) = inr response
        /\ QueryResponse.session_id response = "default")
  /\ exists response,
       fst (query_documents Demo.echo Demo.str (Demo.ask "q1" (Some ""))
              Demo.configured) = inr response
       /\ QueryResponse.session_id response <> "".
Proof.
  split; [split|].
  - eexists. vm_compute. reflexivity.
  - eexists. split; [vm_compute; reflexivity | reflexivity].
  - eexists. split; [vm_compute; reflexivity | discriminate].
Qed.

(** C6, as worded, fails: the label returned with an answer is not of the
    form "course_title - lesson_title". *)
Lemma source_label_is_not_course_and_lesson :
  exists response,
    fst (query_documents Demo.echo Demo.str (Demo.ask "What is Python?" None)
           Demo.configured) = inr response
    /\ ~ Forall label_form (QueryResponse.sources response).
Proof.
  eexists. split; [vm_compute; reflexivity|].
  intros Hall. apply Forall_inv in Hall.
  exact (general_knowledge_source_not_label Hall).
Qed.

(** C7, as worded, fails: the returned count is not the number of titles
    in the returned list. *)
Lemma course_count_differs_from_titles :
  exists stats,
    fst (get_course_stats Demo.configured) = inr stats
    /\ CourseStats.total_courses stats
       <> Z.of_nat (length (CourseStats.course_titles stats)).
Proof.
  eexists. split; [reflexivity|]. cbn. lia.
Qed.

(** C9, as worded, fails for the empty string as session id: nothing has
    ever been stored under it, yet a request that carries it is served
    under "default" and is sent together with that session's history
    instead of starting with empty prior context. *)
Lemma empty_session_id_is_sent_default_history :
  let request := Demo.ask "q2" (Some "") in
  sessions Demo.after_anonymous !! "" = None
  /\ CreateArgs.messages
       <$> last (calls (snd (query_documents Demo.echo Demo.str request
                               Demo.after_anonymous)))
     = Some [ {| Message.role := "user"; Message.content := "q1" |};
              {| Message.role := "assistant"; Message.content := "re: q1" |};
              {| Message.role := "user"; Message.content := "q2" |} ]
  /\ CreateArgs.messages
       <$> last (calls (snd (query_documents Demo.echo Demo.str request
                               Demo.after_anonymous)))
     <> Some [ {| Message.role := "user"; Message.content := "q2" |} ].
Proof.
  cbv zeta. split; [vm_compute; reflexivity|].
  split; [vm_compute; reflexivity|].
  intros Heq. apply (f_equal (fun o => length (default [] o))) in Heq.
  vm_compute in Heq. discriminate Heq.
Qed.

(** ** The theorems applied to concrete requests *)

Lemma generation_failure_is_terminal_witness :
  let request := Demo.ask "q1" (Some "s1") in
  let w := Demo.configured in
  truthy (environ w !! "ANTHROPIC_API_KEY") = true
  /\ Demo.overloaded (length (calls w)) (request_args request w)
     = inl (ClientError "overloaded")
  /\ (fst (query_documents Demo.overloaded Demo.str request w)
      = inl (HTTPException 500 (Demo.str (ClientError "overloaded")))
      /\ calls (snd (query_documents Demo.overloaded Demo.str request w))
         = calls w ++ [ request_args request w ]
      /\ sessions (snd (query_documents Demo.overloaded Demo.str request w))
         = sessions w).
Proof.
  intros request w.
  assert (Hkey : truthy (environ w !! "ANTHROPIC_API_KEY") = true)
    by (vm_compute; reflexivity).
  assert (Hcall : Demo.overloaded (length (calls w)) (request_args request w)
                  = inl (ClientError "overloaded")) by reflexivity.
  exact (conj Hkey (conj Hcall
           (generation_failure_is_terminal Demo.overloaded Demo.str request w
              (ClientError "overloaded") Hkey Hcall))).
Defined.

Lemma missing_api_key_is_rejected_witness :
  let request := Demo.ask "q1" (Some "s1") in
  let w := Demo.unconfigured in
  environ w !! "ANTHROPIC_API_KEY" = None
  /\ (fst (query_documents Demo.echo Demo.str request w)
      = inl (HTTPException 500
               (Demo.str (HTTPException 500 api_key_missing_detail)))
      /\ calls (snd (query_documents Demo.echo Demo.str request w)) = calls w
      /\ sessions (snd (query_documents Demo.echo Demo.str request w)) = sessions w).
Proof.
  intros request w.
  assert (Hunset : environ w !! "ANTHROPIC_API_KEY" = None)
    by (vm_compute; reflexivity).
  exact (conj Hunset
           (missing_api_key_is_rejected Demo.echo Demo.str request w Hunset)).
Defined.

Lemma empty_query_is_served_witness :
  let request := Demo.ask "" None in
  let w := Demo.configured in
  CreateArgs.messages (request_args request w)
  = [ {| Message.role := "user"; Message.content := "" |} ]
  /\ query_documents Probe.strict Demo.str request w
     = (inl (HTTPException 500 "text content blocks must be non-empty"),
        logged w (request_args request w))
  /\ fst (query_documents Demo.echo Demo.str request w)
     = inr {| QueryResponse.answer := "re: ";
              QueryResponse.sources := [ general_knowledge_source ];
              QueryResponse.session_id := "default" |}
  /\ history "default" (sessions (snd (query_documents Demo.echo Demo.str request w)))
     = [ {| Exchange.user := ""; Exchange.assistant := "re: " |} ].
Proof.
  intros request w.
  destruct (empty_query_is_served Probe.strict Demo.str None w)
    as (Hprompt & _ & Hrefused).
  destruct (empty_query_is_served Demo.echo Demo.str None w)
    as (_ & _ & Hanswered).
  change (QueryRequest.Build "" None) with request in Hprompt, Hrefused, Hanswered.
  split; [rewrite Hprompt; vm_compute; reflexivity|].
  split; [rewrite Hrefused; vm_compute; reflexivity|].
  rewrite Hanswered. split; vm_compute; reflexivity.
Defined.

Lemma unknown_session_has_empty_history_witness :
  let request := Demo.ask "hello" (Some "s2") in
  let w := Demo.after_four in
  sessions w !! resolved request = None
  /\ sessions_get (resolved request) w = (inr [], w)
  /\ CreateArgs.messages (request_args request w)
     = [ {| Message.role := "user"; Message.content := "hello" |} ]
  /\ history "s2" (sessions (snd (query_documents Demo.echo Demo.str request w)))
     = [ {| Exchange.user := "hello"; Exchange.assistant := "re: hello" |} ].
Proof.
  intros request w.
  assert (Hunknown : sessions w !! resolved request = None)
    by (vm_compute; reflexivity).
  destruct (unknown_session_has_empty_history Demo.echo Demo.str request w Hunknown)
    as (Hget & Hargs & Hrun).
  assert (Hkey : truthy (environ w !! "ANTHROPIC_API_KEY") = true)
    by (vm_compute; reflexivity).
  assert (Hcall : Demo.echo (length (calls w)) (request_args request w)
                  = inr {| Response.content := [ {| ContentBlock.text := "re: hello" |} ] |})
    by (vm_compute; reflexivity).
  specialize (Hrun _ _ [] Hkey Hcall eq_refl).
  split; [exact Hunknown|]. split; [exact Hget|].
  split; [by rewrite Hargs|]. rewrite Hrun. vm_compute. reflexivity.
Defined.

Lemma prompt_is_built_from_last_three_witness :
  let request := Demo.ask "q5" (Some "s1") in
  let w := Demo.after_four in
  truthy (environ w !! "ANTHROPIC_API_KEY") = true
  /\ (let stored := history (resolved request) (sessions w) in
      calls (snd (query_documents Demo.echo Demo.str request w))
      = calls w
        ++ [ create_args
               (flat_map turn_pair (last_slice 3 stored)
                ++ [ {| Message.role := "user";
                        Message.content := QueryRequest.query request |} ]) ]
      /\ length (last_slice 3 stored) = Nat.min 3 (length stored)
      /\ take (length stored - 3) stored ++ last_slice 3 stored = stored).
Proof.
  intros request w.
  assert (Hkey : truthy (environ w !! "ANTHROPIC_API_KEY") = true)
    by (vm_compute; reflexivity).
  exact (conj Hkey
           (prompt_is_built_from_last_three Demo.echo Demo.str request w Hkey)).
Defined.

Lemma answer_carries_fixed_source_witness :
  let request := Demo.ask "What is Python?" None in
  let w := Demo.configured in
  let block := {| ContentBlock.text := "re: What is Python?" |} in
  let response := {| Response.content := [ block ] |} in
  truthy (environ w !! "ANTHROPIC_API_KEY") = true
  /\ Demo.echo (length (calls w)) (request_args request w) = inr response
  /\ Response.content response = [ block ]
  /\ (fst (query_documents Demo.echo Demo.str request w)
      = inr {| QueryResponse.answer := ContentBlock.text block;
               QueryResponse.sources := [ general_knowledge_source ];
               QueryResponse.session_id := resolved request |}
      /\ calls (snd (query_documents Demo.echo Demo.str request w))
         = calls w ++ [ request_args request w ]
      /\ CreateArgs.system (request_args request w) = system_prompt).
Proof.
  intros request w block response.
  assert (Hkey : truthy (environ w !! "ANTHROPIC_API_KEY") = true)
    by (vm_compute; reflexivity).
  assert (Hcall : Demo.echo (length (calls w)) (request_args request w) = inr response)
    by (vm_compute; reflexivity).
  assert (Hcons : Response.content response = [ block ]) by reflexivity.
  exact (conj Hkey (conj Hcall (conj Hcons
           (answer_carries_fixed_source Demo.echo Demo.str request w response
              block [] Hkey Hcall Hcons)))).
Defined.

Lemma response_session_id_is_given_or_default_witness :
  let request := Demo.ask "q1" (Some "s1") in
  let w := Demo.configured in
  let response := {| QueryResponse.answer := "re: q1";
                     QueryResponse.sources := [ general_knowledge_source ];
                     QueryResponse.session_id := "s1" |} in
  let w' := snd (query_documents Demo.echo Demo.str request w) in
  query_documents Demo.echo Demo.str request w = (inr response, w')
  /\ QueryResponse.session_id response
     = match QueryRequest.session_id request with
       | Some s => if decide (s = "") then "default" else s
       | None => "default"
       end.
Proof.
  intros request w response w'.
  assert (Hrun : query_documents Demo.echo Demo.str request w = (inr response, w'))
    by (vm_compute; reflexivity).
  exact (conj Hrun
           (response_session_id_is_given_or_default Demo.echo Demo.str request w
              response w' Hrun)).
Defined.

Lemma sources_are_the_fixed_notice_witness :
  let request := Demo.ask "q5" (Some "s1") in
  let w := Demo.after_four in
  let response := {| QueryResponse.answer := "re: q5";
                     QueryResponse.sources := [ general_knowledge_source ];
                     QueryResponse.session_id := "s1" |} in
  let w' := snd (query_documents Demo.echo Demo.str request w) in
  query_documents Demo.echo Demo.str request w = (inr response, w')
  /\ (QueryResponse.sources response = [ general_knowledge_source ]
      /\ NoDup (QueryResponse.sources response)
      /\ Forall (fun label => ~ label_form label) (QueryResponse.sources response)).
Proof.
  intros request w response w'.
  assert (Hrun : query_documents Demo.echo Demo.str request w = (inr response, w'))
    by (vm_compute; reflexivity).
  exact (conj Hrun
           (sources_are_the_fixed_notice Demo.echo Demo.str request w
              response w' Hrun)).
Defined.


(** ** Further properties of the handlers *)

Lemma resolved_nonempty (request : QueryRequest.t) : resolved request <> "".
Proof.
  unfold resolved. rewrite or_else_cases.
  destruct (QueryRequest.session_id request) as [s|]; [|discriminate].
  destruct (decide (s = "")); [discriminate | assumption].
Qed.

Lemma flat_map_turn_pair_length (l : list Exchange.t) :
  length (flat_map turn_pair l) = 2 * length l.
Proof. induction l as [|exchange l IH]; cbn [flat_map length app turn_pair]; lia. Qed.

Lemma last_slice_snoc {A : Type} (n : nat) (l : list A) (x : A) :
  last_slice (S n) (l ++ [x]) = last_slice n l ++ [x].
Proof.
  unfold last_slice. rewrite length_app. cbn [length].
  replace (length l + 1 - S n) with (length l - n) by lia.
  apply drop_app_le. lia.
Qed.

Section Coverage.

Variable messages_create : nat -> CreateArgs.t -> Exception + Response.t.
Variable str : Exception -> string.

Lemma environ_after_request request w :
  environ (snd (query_documents messages_create str request w)) = environ w.
Proof.
  by destruct (query_documents_outcome messages_create str request w).
Qed.

Lemma environ_after_serve requests w :
  environ (snd (serve messages_create str requests w)) = environ w.
Proof.
  revert w. induction requests as [|request rest IH]; intros w; [reflexivity|].
  rewrite serve_cons. cbn [snd]. by rewrite IH, environ_after_request.
Qed.

Lemma other_session_after_request request w sid :
  resolved request <> sid ->
  sessions (snd (query_documents messages_create str request w)) !! sid
  = sessions w !! sid.
Proof.
  intros Hother.
  destruct (query_documents_outcome messages_create str request w);
    cbn [snd logged sessions]; try reflexivity.
  by rewrite lookup_insert_ne.
Qed.

Lemma tidy_after_request request w :
  tidy (sessions w) ->
  tidy (sessions (snd (query_documents messages_create str request w))).
Proof.
  intros Htidy.
  destruct (query_documents_outcome messages_create str request w);
    cbn [snd logged sessions]; try exact Htidy.
  intros sid l. destruct (decide (resolved request = sid)) as [<-|Hother].
  - rewrite lookup_insert_eq. intros [= <-]. split.
    + apply resolved_nonempty.
    + intros Hnil. by apply app_eq_nil in Hnil as [_ Hnil].
  - rewrite lookup_insert_ne by exact Hother. apply Htidy.
Qed.

(** X1: the health probe never fails and changes nothing, and what it reports
    about the key is exactly what decides a query: reported configured, a
    query reaches the client; reported not configured, a query is turned
    away with the key-missing error before anything else happens. *)
Theorem health_check_agrees_with_query_gate request w :
  exists health,
    health_check w = (inr health, w)
    /\ Health.status health = "healthy"
    /\ (Health.anthropic_api_configured health = true ->
        calls (snd (query_documents messages_create str request w))
        = calls w ++ [ request_args request w ])
    /\ (Health.anthropic_api_configured health = false ->
        query_documents messages_create str request w
        = (inl (HTTPException 500
                  (str (HTTPException 500 api_key_missing_detail))), w)).
Proof.
  eexists. split; [reflexivity|]. cbn [Health.status Health.anthropic_api_configured].
  split; [reflexivity|]. split.
  - apply calls_after_request.
  - apply query_documents_no_key.
Qed.

(** X2: a key that is set to the empty string counts as missing: the health
    probe reports it as not configured and a query is turned away, without
    a client call and without touching the sessions. *)
Theorem blank_api_key_counts_as_missing request w :
  environ w !! "ANTHROPIC_API_KEY" = Some "" ->
  (exists health,
     health_check w = (inr health, w)
     /\ Health.anthropic_api_configured health = false)
  /\ query_documents messages_create str request w
     = (inl (HTTPException 500
               (str (HTTPException 500 api_key_missing_detail))), w).
Proof.
  intros Hblank. split.
  - eexists. split; [reflexivity|].
    cbn [Health.anthropic_api_configured]. by rewrite Hblank.
  - apply query_documents_no_key. by rewrite Hblank.
Qed.

(** X3: whatever goes wrong inside the handler, the caller only ever sees an
    HTTP 500: no other status code and no other exception leaves it. *)
Theorem only_http_500_escapes request w e :
  fst (query_documents messages_create str request w) = inl e ->
  exists detail, e = HTTPException 500 detail.
Proof.
  destruct (query_documents_outcome messages_create str request w);
    cbn [fst]; intros [= <-]; eauto.
Qed.

(** X4: a reply that carries no content block is an error like any other: the
    request ends in HTTP 500 with the text of the index error, after one
    client call, and nothing is stored. *)
Theorem reply_without_content_is_an_error request w response :
  truthy (environ w !! "ANTHROPIC_API_KEY") = true ->
  messages_create (length (calls w)) (request_args request w) = inr response ->
  Response.content response = [] ->
  fst (query_documents messages_create str request w)
  = inl (HTTPException 500 (str IndexError))
  /\ calls (snd (query_documents messages_create str request w))
     = calls w ++ [ request_args request w ]
  /\ sessions (snd (query_documents messages_create str request w)) = sessions w.
Proof.
  intros Hkey Hcall Hnil.
  rewrite (query_documents_no_content _ _ _ _ _ Hkey Hcall Hnil).
  repeat split.
Qed.

(** X6: requests never touch the sessions they are not served under: after
    any run, a session id that none of the requests resolves to holds
    exactly what it held before (or is still absent). *)
Theorem other_sessions_are_untouched requests w sid :
  Forall (fun request => resolved request <> sid) requests ->
  sessions (snd (serve messages_create str requests w)) !! sid
  = sessions w !! sid.
Proof.
  intros Hother. revert w.
  induction Hother as [|request rest Hne _ IH]; intros w; [reflexivity|].
  rewrite serve_cons. cbn [snd].
  by rewrite IH, other_session_after_request.
Qed.

(** X7: without a usable key the process is inert: every request of a run is
    turned away with the same HTTP 500 and the process state, client log
    included, is exactly what it was. *)
Theorem unconfigured_process_is_inert requests w :
  truthy (environ w !! "ANTHROPIC_API_KEY") = false ->
  serve messages_create str requests w
  = (map (fun _ => inl (HTTPException 500
                          (str (HTTPException 500 api_key_missing_detail))))
         requests, w).
Proof.
  intros Hkey. induction requests as [|request rest IH]; [reflexivity|].
  rewrite serve_cons, (query_documents_no_key _ _ _ _ Hkey). cbn [fst snd].
  by rewrite IH.
Qed.

(** X8: with the key configured every request costs exactly one client call,
    whether it is answered or fails: after a run the log has grown by the
    number of requests. *)
Theorem one_client_call_per_request requests w :
  truthy (environ w !! "ANTHROPIC_API_KEY") = true ->
  length (calls (snd (serve messages_create str requests w)))
  = length (calls w) + length requests.
Proof.
  revert w. induction requests as [|request rest IH]; intros w Hkey.
  - cbn. lia.
  - rewrite serve_cons. cbn [snd]. rewrite IH.
    + rewrite (calls_after_request _ _ _ _ Hkey), length_app. cbn [length]. lia.
    + by rewrite environ_after_request.
Qed.

(** X9: the prompt is bounded whatever the length of the conversation: two
    messages for each of the last three stored exchanges at most, plus the
    query, so never more than seven. *)
Theorem prompt_has_at_most_seven_messages request w :
  length (CreateArgs.messages (request_args request w))
  = 2 * Nat.min 3 (length (history (resolved request) (sessions w))) + 1
  /\ length (CreateArgs.messages (request_args request w)) <= 7.
Proof.
  unfold request_args, create_args. cbn [CreateArgs.messages].
  rewrite build_messages_flat, length_app, flat_map_turn_pair_length,
    last_slice_length.
  cbn [length]. lia.
Qed.

(** X10: the prompt alternates strictly: messages at even positions are user
    turns, messages at odd positions are assistant turns, and it starts
    with a user turn. *)
Theorem prompt_roles_alternate request w i message :
  CreateArgs.messages (request_args request w) !! i = Some message ->
  Message.role message = role_at i.
Proof.
  unfold request_args, create_args. cbn [CreateArgs.messages].
  rewrite build_messages_flat.
  generalize (last_slice 3 (history (resolved request) (sessions w))).
  intros l. revert i.
  induction l as [|exchange l IH]; intros i.
  - destruct i as [|i]; cbn; [by intros [= <-] | by destruct i].
  - destruct i as [|[|i]].
    + by intros [= <-].
    + by intros [= <-].
    + intros Hlookup. apply (IH i Hlookup).
Qed.

(** X11: what is answered is what is remembered: once a request has been
    answered, the next request of the same session is sent with the earlier
    query and the very answer that was returned as its two most recent
    turns, right before the new query. *)
Theorem answer_is_fed_back_to_next_request request next w response w' :
  query_documents messages_create str request w = (inr response, w') ->
  resolved next = resolved request ->
  CreateArgs.messages (request_args next w')
  = flat_map turn_pair (last_slice 2 (history (resolved request) (sessions w)))
    ++ [ {| Message.role := "user";
            Message.content := QueryRequest.query request |};
         {| Message.role := "assistant";
            Message.content := QueryResponse.answer response |};
         {| Message.role := "user";
            Message.content := QueryRequest.query next |} ].
Proof.
  intros Hrun Hsame.
  unfold request_args, create_args. cbn [CreateArgs.messages].
  rewrite build_messages_flat, Hsame.
  revert Hrun.
  destruct (query_documents_outcome messages_create str request w);
    intros [= <- <-].
  cbn [sessions QueryResponse.answer]. unfold history at 1.
  rewrite lookup_insert_eq. cbn [default from_option id].
  rewrite last_slice_snoc, flat_map_app. cbn [flat_map turn_pair app].
  by rewrite <- app_assoc.
Qed.

(** X12: an answered request leaves exactly one more session id in the store
    at most: the ids afterwards are the ids before plus the one the request
    was served under. *)
Theorem answered_request_adds_only_its_session request w response w' :
  query_documents messages_create str request w = (inr response, w') ->
  dom (sessions w') = {[ resolved request ]} ∪ dom (sessions w).
Proof.
  destruct (query_documents_outcome messages_create str request w);
    intros [= <- <-].
  cbn [sessions]. apply dom_insert_L.
Qed.

(** X13: the store stays tidy: if every stored session has a non-empty id and
    at least one exchange, the same holds after any run of requests. No
    session is ever left empty, and none is ever filed under the empty id. *)
Theorem store_stays_tidy requests w :
  tidy (sessions w) ->
  tidy (sessions (snd (serve messages_create str requests w))).
Proof.
  revert w. induction requests as [|request rest IH]; intros w Htidy;
    [exact Htidy|].
  rewrite serve_cons. cbn [snd]. apply IH, tidy_after_request, Htidy.
Qed.

End Coverage.

(** ** The fixture application *)

Section Fixture.

Variable rag : TestApp.MockRag.
Variable str : Exception -> string.

(** X14: in the fixture application an answered request that brings a
    non-empty session id is served under it without asking the mock for a
    new one; otherwise the id is the one [create_session] handed out, asked
    for once and before the query. Answer and sources are the mock's, for
    the request's query and that id. *)
Theorem fixture_session_is_given_or_created request log response log' :
  TestApp.query_documents rag str request log = (inr response, log') ->
  TestApp.query rag (QueryRequest.query request) (QueryResponse.session_id response)
  = inr (QueryResponse.answer response, QueryResponse.sources response)
  /\ match QueryRequest.session_id request with
     | Some (String a s) =>
         QueryResponse.session_id response = String a s
         /\ log' = log ++ [ TestApp.Query (QueryRequest.query request) (String a s) ]
     | _ =>
         TestApp.create_session rag = inr (QueryResponse.session_id response)
         /\ log' = log ++ [ TestApp.CreateSession;
                            TestApp.Query (QueryRequest.query request)
                                          (QueryResponse.session_id response) ]
     end.
Proof.
  unfold TestApp.query_documents, TestApp.session_for.
  destruct (QueryRequest.session_id request) as [[|a s]|]; cbn [truthy negb].
  2: { destruct (TestApp.query rag (QueryRequest.query request) (String a s))
         as [e|[answer sources]] eqn:Hquery; intros [= <- <-].
       cbn. by rewrite Hquery. }
  all: destruct (TestApp.create_session rag) as [e|created]; [by intros [=]|].
  all: destruct (TestApp.query rag (QueryRequest.query request) created)
         as [e|[answer sources]] eqn:Hquery; intros [= <- <-]; cbn.
  all: rewrite Hquery, <- app_assoc; by cbn.
Qed.

(** X15: whatever one of the mock's methods raises comes back as an HTTP
    500 whose detail is the text of that exception: if [create_session]
    raises when the request brings no usable id, the query is never made;
    if [query] raises for the id the request is served under, the request
    ends there. *)
Theorem fixture_reports_what_the_mock_raised request log cause :
  (truthy (QueryRequest.session_id request) = false ->
   TestApp.create_session rag = inl cause ->
   TestApp.query_documents rag str request log
   = (inl (HTTPException 500 (str cause)), log ++ [ TestApp.CreateSession ]))
  /\ (forall session_id log1,
        TestApp.session_for rag request log = (inr session_id, log1) ->
        TestApp.query rag (QueryRequest.query request) session_id = inl cause ->
        TestApp.query_documents rag str request log
        = (inl (HTTPException 500 (str cause)),
           log1 ++ [ TestApp.Query (QueryRequest.query request) session_id ])).
Proof.
  split.
  - intros Hfalsy Hcreate.
    unfold TestApp.query_documents, TestApp.session_for.
    destruct (QueryRequest.session_id request) as [[|a s]|];
      cbn [truthy negb] in *; try discriminate Hfalsy; by rewrite Hcreate.
  - intros session_id log1 Hsession Hquery.
    unfold TestApp.query_documents. by rewrite Hsession, Hquery.
Qed.

End Fixture.

(** X16: as the fixture configures its mock, every request is answered,
    whatever its query (the empty one included) and its session id: the
    reply is the canned answer with the canned source, under the given id
    or, failing a non-empty one, under "test-session-123". *)
Theorem fixture_answers_every_request (str : Exception -> string)
    (request : QueryRequest.t) (log : list TestApp.MockCall) :
  fst (TestApp.query_documents TestApp.mock_rag str request log)
  = inr {| QueryResponse.answer :=
             "This is a test response about Python programming.";
           QueryResponse.sources := [ "Python Basics - Introduction to Python" ];
           QueryResponse.session_id :=
             or_else (QueryRequest.session_id request) "test-session-123" |}.
Proof.
  unfold TestApp.query_documents, TestApp.session_for.
  by destruct (QueryRequest.session_id request) as [[|a s]|].
Qed.

(** ** The further properties applied to concrete requests *)

Lemma blank_api_key_counts_as_missing_witness :
  let request := Demo.ask "q1" None in
  environ Probe.blank_key !! "ANTHROPIC_API_KEY" = Some ""
  /\ query_documents Demo.echo Demo.str request Probe.blank_key
     = (inl (HTTPException 500
               (Demo.str (HTTPException 500 api_key_missing_detail))),
        Probe.blank_key).
Proof.
  intros request.
  assert (Hblank : environ Probe.blank_key !! "ANTHROPIC_API_KEY" = Some "")
    by (vm_compute; reflexivity).
  exact (conj Hblank
           (proj2 (blank_api_key_counts_as_missing Demo.echo Demo.str request
                     Probe.blank_key Hblank))).
Defined.

Lemma only_http_500_escapes_witness :
  let request := Demo.ask "q1" None in
  let e := HTTPException 500 "list index out of range" in
  fst (query_documents Probe.silent Demo.str request Demo.configured) = inl e
  /\ exists detail, e = HTTPException 500 detail.
Proof.
  intros request e.
  assert (Hfail : fst (query_documents Probe.silent Demo.str request
                         Demo.configured) = inl e) by (vm_compute; reflexivity).
  exact (conj Hfail
           (only_http_500_escapes Probe.silent Demo.str request Demo.configured
              e Hfail)).
Defined.

Lemma reply_without_content_is_an_error_witness :
  let request := Demo.ask "q1" (Some "s1") in
  let w := Demo.configured in
  let response := {| Response.content := [] |} in
  truthy (environ w !! "ANTHROPIC_API_KEY") = true
  /\ Probe.silent (length (calls w)) (request_args request w) = inr response
  /\ Response.content response = []
  /\ (fst (query_documents Probe.silent Demo.str request w)
      = inl (HTTPException 500 (Demo.str IndexError))
      /\ calls (snd (query_documents Probe.silent Demo.str request w))
         = calls w ++ [ request_args request w ]
      /\ sessions (snd (query_documents Probe.silent Demo.str request w))
         = sessions w).
Proof.
  intros request w response.
  assert (Hkey : truthy (environ w !! "ANTHROPIC_API_KEY") = true)
    by (vm_compute; reflexivity).
  assert (Hcall : Probe.silent (length (calls w)) (request_args request w)
                  = inr response) by reflexivity.
  assert (Hnil : Response.content response = []) by reflexivity.
  exact (conj Hkey (conj Hcall (conj Hnil
           (reply_without_content_is_an_error Probe.silent Demo.str request w
              response Hkey Hcall Hnil)))).
Defined.

Lemma other_sessions_are_untouched_witness :
  let requests := [ Demo.ask "a" None; Demo.ask "c" (Some "s2") ] in
  Forall (fun request => resolved request <> "s1") requests
  /\ sessions (snd (serve Demo.echo Demo.str requests Demo.after_four)) !! "s1"
     = sessions Demo.after_four !! "s1".
Proof.
  intros requests.
  assert (Hother : Forall (fun request => resolved request <> "s1") requests)
    by (repeat constructor; vm_compute; discriminate).
  exact (conj Hother
           (other_sessions_are_untouched Demo.echo Demo.str requests
              Demo.after_four "s1" Hother)).
Defined.

Lemma unconfigured_process_is_inert_witness :
  truthy (environ Demo.unconfigured !! "ANTHROPIC_API_KEY") = false
  /\ serve Demo.echo Demo.str Demo.seven Demo.unconfigured
     = (map (fun _ => inl (HTTPException 500
                             (Demo.str (HTTPException 500 api_key_missing_detail))))
            Demo.seven, Demo.unconfigured).
Proof.
  assert (Hkey : truthy (environ Demo.unconfigured !! "ANTHROPIC_API_KEY") = false)
    by (vm_compute; reflexivity).
  exact (conj Hkey
           (unconfigured_process_is_inert Demo.echo Demo.str Demo.seven
              Demo.unconfigured Hkey)).
Defined.

Lemma one_client_call_per_request_witness :
  truthy (environ Demo.configured !! "ANTHROPIC_API_KEY") = true
  /\ length (calls (snd (serve Probe.flaky Demo.str Probe.mixed Demo.configured)))
     = length (calls Demo.configured) + length Probe.mixed.
Proof.
  assert (Hkey : truthy (environ Demo.configured !! "ANTHROPIC_API_KEY") = true)
    by (vm_compute; reflexivity).
  exact (conj Hkey
           (one_client_call_per_request Probe.flaky Demo.str Probe.mixed
              Demo.configured Hkey)).
Defined.

Lemma prompt_roles_alternate_witness :
  let request := Demo.ask "q5" (Some "s1") in
  let message := {| Message.role := "assistant"; Message.content := "re: q4" |} in
  CreateArgs.messages (request_args request Demo.after_four) !! 5 = Some message
  /\ Message.role message = role_at 5.
Proof.
  intros request message.
  assert (Hat : CreateArgs.messages (request_args request Demo.after_four) !! 5
                = Some message) by (vm_compute; reflexivity).
  exact (conj Hat
           (prompt_roles_alternate request Demo.after_four 5 message Hat)).
Defined.

Lemma answer_is_fed_back_to_next_request_witness :
  let request := Demo.ask "q5" (Some "s1") in
  let next := Demo.ask "q6" (Some "s1") in
  let w := Demo.after_four in
  let response := {| QueryResponse.answer := "re: q5";
                     QueryResponse.sources := [ general_knowledge_source ];
                     QueryResponse.session_id := "s1" |} in
  let w' := snd (query_documents Demo.echo Demo.str request w) in
  query_documents Demo.echo Demo.str request w = (inr response, w')
  /\ resolved next = resolved request
  /\ CreateArgs.messages (request_args next w')
     = flat_map turn_pair (last_slice 2 (history (resolved request) (sessions w)))
       ++ [ {| Message.role := "user";
               Message.content := QueryRequest.query request |};
            {| Message.role := "assistant";
               Message.content := QueryResponse.answer response |};
            {| Message.role := "user";
               Message.content := QueryRequest.query next |} ].
Proof.
  intros request next w response w'.
  assert (Hrun : query_documents Demo.echo Demo.str request w = (inr response, w'))
    by (vm_compute; reflexivity).
  assert (Hsame : resolved next = resolved request) by reflexivity.
  exact (conj Hrun (conj Hsame
           (answer_is_fed_back_to_next_request Demo.echo Demo.str request next w
              response w' Hrun Hsame))).
Defined.

Lemma answered_request_adds_only_its_session_witness :
  let request := Demo.ask "hello" (Some "s2") in
  let w := Demo.after_four in
  let response := {| QueryResponse.answer := "re: hello";
                     QueryResponse.sources := [ general_knowledge_source ];
                     QueryResponse.session_id := "s2" |} in
  let w' := snd (query_documents Demo.echo Demo.str request w) in
  query_documents Demo.echo Demo.str request w = (inr response, w')
  /\ dom (sessions w') = {[ resolved request ]} ∪ dom (sessions w).
Proof.
  intros request w response w'.
  assert (Hrun : query_documents Demo.echo Demo.str request w = (inr response, w'))
    by (vm_compute; reflexivity).
  exact (conj Hrun
           (answered_request_adds_only_its_session Demo.echo Demo.str request w
              response w' Hrun)).
Defined.

Lemma store_stays_tidy_witness :
  tidy (sessions Demo.configured)
  /\ tidy (sessions (snd (serve Probe.flaky Demo.str Demo.seven Demo.configured))).
Proof.
  assert (Htidy : tidy (sessions Demo.configured))
    by (intros sid l Hstored; cbn in Hstored; rewrite lookup_empty in Hstored;
        discriminate Hstored).
  exact (conj Htidy
           (store_stays_tidy Probe.flaky Demo.str Demo.seven Demo.configured Htidy)).
Defined.

Lemma fixture_session_is_given_or_created_witness :
  let request := Demo.ask "What is Python?" None in
  let response :=
    {| QueryResponse.answer := "This is a test response about Python programming.";
       QueryResponse.sources := [ "Python Basics - Introduction to Python" ];
       QueryResponse.session_id := "test-session-123" |} in
  let log' := [ TestApp.CreateSession;
                TestApp.Query "What is Python?" "test-session-123" ] in
  TestApp.query_documents TestApp.mock_rag Demo.str request [] = (inr response, log')
  /\ TestApp.create_session TestApp.mock_rag = inr (QueryResponse.session_id response).
Proof.
  intros request response log'.
  assert (Hrun : TestApp.query_documents TestApp.mock_rag Demo.str request []
                 = (inr response, log')) by reflexivity.
  destruct (fixture_session_is_given_or_created TestApp.mock_rag Demo.str request
              [] response log' Hrun) as [_ [Hcreated _]].
  exact (conj Hrun Hcreated).
Defined.

Lemma fixture_reports_what_the_mock_raised_witness :
  let request := Demo.ask "What is Python?" None in
  TestApp.session_for Probe.failing_rag request []
  = (inr "test-session-123", [ TestApp.CreateSession ])
  /\ TestApp.query Probe.failing_rag (QueryRequest.query request) "test-session-123"
     = inl (ClientError "Test error")
  /\ TestApp.query_documents Probe.failing_rag Demo.str request []
     = (inl (HTTPException 500 "Test error"),
        [ TestApp.CreateSession;
          TestApp.Query "What is Python?" "test-session-123" ]).
Proof.
  intros request.
  assert (Hsession : TestApp.session_for Probe.failing_rag request []
                     = (inr "test-session-123", [ TestApp.CreateSession ]))
    by reflexivity.
  assert (Hquery : TestApp.query Probe.failing_rag (QueryRequest.query request)
                     "test-session-123" = inl (ClientError "Test error"))
    by reflexivity.
  exact (conj Hsession (conj Hquery
           (proj2 (fixture_reports_what_the_mock_raised Probe.failing_rag Demo.str
                     request [] (ClientError "Test error"))
              "test-session-123" [ TestApp.CreateSession ] Hsession Hquery))).
Defined.
